(** * IsItAI: the deepfake-detection service of [backend/app.py]

    A shallow embedding of the model loader ([load_model]), the inference
    pipeline ([predict_image]) and the [POST /predict] handler ([predict]),
    followed by the properties of the decision rule, of the reported
    probabilities and of the error paths.

    Conventions of the embedding.

    - A Python float ([pyfloat]) is a finite value, represented by the
      rational number it denotes, an infinity or nan; comparisons are those
      of IEEE 754.  [round(x, 4)] of a finite float is rounding to the
      nearest multiple of [1/10000], ties to the even multiple, which is the
      decimal Python prints for the rounded float; an infinity or nan is
      returned as it is.
    - The global variable [model], torch's random generator and the sequence
      of calls into PIL / torchvision / torch / the upload object form the
      [state]; every function of the source is a computation in a state and
      exception monad [M] in which a raised exception keeps the state reached
      so far, as in Python.
    - PIL, torchvision, timm, the network and [torch.softmax] are external:
      they are the fields of the record [Env].  Nothing is assumed of their
      arithmetic; what a property needs of it is a hypothesis on the values
      of the run. *)

From Stdlib Require Import ZArith QArith Qround Qabs Qminmax Lia Lqa.
From Stdlib Require Import List String Bool.
Import ListNotations.

#[local] Set Warnings "-register-all".
Local Open Scope string_scope.
Local Open Scope list_scope.
Local Open Scope Q_scope.

(** ** Exceptions *)

(** The subclasses of [Exception] the service raises itself, and one
    constructor for whatever a library raises (class name, message). *)
Inductive exn : Type :=
| RuntimeError (msg : string)
| FileNotFoundError (msg : string)
| LibraryError (cls msg : string).

(** [str(e)]. *)
Definition str_exn (e : exn) : string :=
  match e with
  | RuntimeError msg => msg
  | FileNotFoundError msg => msg
  | LibraryError _ msg => msg
  end.

(** [fastapi.HTTPException(status_code=..., detail=...)]; only the handler
    raises it, outside of its [try] block or from its [except] block. *)
Record HTTPException : Type := mkHTTPException {
  status_code : Z;
  detail : string
}.

(** ** Floats *)

(** A Python float. *)
Inductive pyfloat : Type :=
| Fin (q : Q)
| PosInf
| NegInf
| NaN.

(** ** Python values of the returned dictionaries *)

Inductive value : Type :=
| VNone
| VBool (b : bool)
| VFloat (x : pyfloat)
| VStr (s : string)
| VDict (d : list (string * value)).

(** A dict literal keeps insertion order; a key given twice keeps its first
    position and takes the last value. *)
Definition pydict : Type := list (string * value).

Fixpoint dict_set (k : string) (v : value) (d : pydict) : pydict :=
  match d with
  | [] => [(k, v)]
  | (k', v') :: d' =>
      if String.eqb k k' then (k, v) :: d' else (k', v') :: dict_set k v d'
  end.

Fixpoint dict_get (k : string) (d : pydict) : option value :=
  match d with
  | [] => None
  | (k', v') :: d' => if String.eqb k k' then Some v' else dict_get k d'
  end.

(** [{k1: v1, ..., **rest}]: the items in order, each one set in turn. *)
Definition dict_literal (items : list (string * value)) : pydict :=
  fold_left (fun d kv => dict_set (fst kv) (snd kv) d) items [].

(** Truth value of a string: the empty string is false. *)
Definition truthy (s : string) : bool := negb (String.eqb s "").

(** ** Numbers *)

(** Nearest integer, ties to even. *)
Definition round_half_even (x : Q) : Z :=
  let f := Qfloor x in
  match Qcompare (x - inject_Z f) (1 # 2) with
  | Lt => f
  | Gt => (f + 1)%Z
  | Eq => if Z.even f then f else (f + 1)%Z
  end.

(** [round(x, 4)] of a finite float. *)
Definition round4 (x : Q) : Q := Qmake (round_half_even (x * 10000)) 10000.

(** [round(x, 4)]: an infinity or nan comes back unchanged. *)
Definition float_round4 (x : pyfloat) : pyfloat :=
  match x with
  | Fin q => Fin (round4 q)
  | _ => x
  end.

(** [a > b] on finite floats. *)
Definition Qgtb (a b : Q) : bool :=
  match Qcompare a b with Gt => true | _ => false end.

(** [a > b] on floats: false as soon as one side is nan. *)
Definition float_gt (a b : pyfloat) : bool :=
  match a, b with
  | NaN, _ => false
  | _, NaN => false
  | Fin x, Fin y => Qgtb x y
  | Fin _, NegInf => true
  | Fin _, PosInf => false
  | PosInf, PosInf => false
  | PosInf, _ => true
  | NegInf, _ => false
  end.

(** ** Images, tensors, the network *)

(** A decoded [PIL.Image.Image]: its colour mode, its size and its raw
    samples. *)
Record Image : Type := mkImage {
  mode : string;
  size : Z * Z;
  pixels : list Z
}.

(** A [torch.Tensor], flattened. *)
Definition Tensor : Type := list Q.

(** A checkpoint: parameter name to values. *)
Definition StateDict : Type := list (string * list Q).

(** A [torch.nn.Module]: its parameters and its [training] flag. *)
Record Module : Type := mkModule {
  params : StateDict;
  training : bool
}.

(** [model.eval()]. *)
Definition eval (m : Module) : Module :=
  {| params := params m; training := false |}.

(** The upload object FastAPI hands to the handler; [upload_read] is what
    [await file.read()] gives. *)
Record UploadFile : Type := mkUploadFile {
  content_type : option string;
  filename : option string;
  upload_read : exn + list Byte.byte
}.

(** ** State, events, the monad *)

(** One entry per call that leaves this file, in the order of the calls. *)
Inductive event : Type :=
| EvPrint (msg : string)
| EvExists (path : string)
| EvCreateModel
| EvTorchLoad (path : string)
| EvLoadStateDict
| EvTo
| EvRead
| EvImageOpen
| EvConvert (from_mode to_mode : string)
| EvPreprocess
| EvForward
| EvSoftmax.

Record state : Type := mkState {
  model : option Module;   (* the global [model] *)
  rng : N;                 (* torch's global random generator *)
  trace : list event
}.

Definition result (E A : Type) : Type := state -> state * (E + A).

(** Computations that raise Python exceptions. *)
Definition M (A : Type) : Type := result exn A.

Definition ret {E A} (a : A) : result E A := fun s => (s, inr a).

Definition raise {E A} (e : E) : result E A := fun s => (s, inl e).

Definition bind {E A B} (c : result E A) (k : A -> result E B) : result E B :=
  fun s =>
    match c s with
    | (s', inl e) => (s', inl e)
    | (s', inr a) => k a s'
    end.

(** [try: c  except Exception as e: h e]. *)
Definition try_except {E E' A} (c : result E A) (h : E -> result E' A)
  : result E' A :=
  fun s =>
    match c s with
    | (s', inl e) => h e s'
    | (s', inr a) => (s', inr a)
    end.

Notation "x <- c ;; k" := (bind c (fun x => k))
  (at level 61, c at next level, right associativity).
Notation "c ;;; k" := (bind c (fun _ => k))
  (at level 61, right associativity).

Definition get_model {E} : result E (option Module) :=
  fun s => (s, inr (model s)).

Definition set_model {E} (m : option Module) : result E unit :=
  fun s => ({| model := m; rng := rng s; trace := trace s |}, inr tt).

(** The state once one more call is recorded. *)
Definition logged (ev : event) (s : state) : state :=
  {| model := model s; rng := rng s; trace := trace s ++ [ev] |}.

Definition emit {E} (ev : event) : result E unit :=
  fun s => (logged ev s, inr tt).

(** A call into a library: recorded, then its value or its exception. *)
Definition call {A} (ev : event) (r : exn + A) : M A :=
  emit ev ;;;
  match r with
  | inl e => raise e
  | inr a => ret a
  end.

(** A call that draws from the random generator. *)
Definition call_rng {A} (ev : event) (f : N -> (exn + A) * N) : M A :=
  emit ev ;;;
  fun s =>
    let (r, g) := f (rng s) in
    ({| model := model s; rng := g; trace := trace s |}, r).

(** ** The libraries and the host *)

Record Env : Type := mkEnv {
  (** [os.path.join(os.path.dirname(__file__), "models",
      "best_effnetb0.pth")] *)
  MODEL_PATH : string;
  (** [os.path.exists] *)
  path_exists : string -> bool;
  (** [timm.create_model(name, pretrained=..., num_classes=...)] *)
  timm_create_model : string -> bool -> Z -> N -> (exn + Module) * N;
  (** [torch.load(path, map_location=DEVICE, weights_only=True)] *)
  torch_load : string -> exn + StateDict;
  (** [module.load_state_dict(state_dict)]: the module as it is left, and
      whether the call raised. *)
  load_state_dict : Module -> StateDict -> Module * (exn + unit);
  (** [module.to(DEVICE)] *)
  module_to : Module -> exn + Module;
  (** [Image.open(io.BytesIO(contents))] *)
  Image_open : list Byte.byte -> exn + Image;
  (** [image.convert(mode)] *)
  Image_convert : Image -> string -> exn + Image;
  (** [preprocess(image).unsqueeze(0).to(DEVICE)], where [preprocess] is
      Resize(224, 224), ToTensor, Normalize(ImageNet mean and std). *)
  preprocess : Image -> exn + Tensor;
  (** [module(img_tensor)] under [torch.no_grad()]: the two logits, which
      may be nan or infinite.  The call is taken to leave the module as it
      is, as a forward pass in evaluation mode does. *)
  forward : Module -> Tensor -> N -> (exn + pyfloat * pyfloat) * N;
  (** [torch.softmax(outputs, dim=1)] on the single row of a batch of one
      image and two classes, each entry read with [.item()]. *)
  torch_softmax : pyfloat * pyfloat -> pyfloat * pyfloat
}.

(** What the tensor library promises of a module in evaluation mode: it has
    no stochastic layer, so that its output does not depend on the random
    generator. *)
Definition eval_deterministic (env : Env) : Prop :=
  forall m x g g',
    training m = false -> fst (forward env m x g) = fst (forward env m x g').

(** ** The service *)

Section Service.

Variable env : Env.

(** [create_model(num_classes=2)] *)
Definition create_model (num_classes : Z) : M Module :=
  call_rng EvCreateModel
    (timm_create_model env "efficientnet_b0" false num_classes).

(** [load_model()] *)
Definition load_model : M bool :=
  try_except
    (emit (EvPrint ("Loading model from: " ++ MODEL_PATH env)) ;;;
     emit (EvPrint "Using device: cpu") ;;;
     found <- call (EvExists (MODEL_PATH env))
                (inr (path_exists env (MODEL_PATH env))) ;;
     if negb found
     then raise (FileNotFoundError
                   ("Model file not found: " ++ MODEL_PATH env))
     else
       net <- create_model 2 ;;
       set_model (Some net) ;;;
       state_dict <- call (EvTorchLoad (MODEL_PATH env))
                       (torch_load env (MODEL_PATH env)) ;;
       (* load_state_dict works on the object the global refers to *)
       let (net1, loaded) := load_state_dict env net state_dict in
       set_model (Some net1) ;;;
       call EvLoadStateDict loaded ;;;
       net2 <- call EvTo (module_to env net1) ;;
       set_model (Some net2) ;;;
       set_model (Some (eval net2)) ;;;
       emit (EvPrint "Model loaded successfully!") ;;;
       ret true)
    (fun e =>
       emit (EvPrint ("Error loading model: " ++ str_exn e)) ;;;
       raise e).

(** [predict_image(image)] *)
Definition predict_image (image : Image) : M pydict :=
  m <- get_model ;;
  match m with
  | None => raise (RuntimeError "Model not loaded")
  | Some net =>
      (* Convert to RGB if necessary *)
      image <- (if negb (String.eqb (mode image) "RGB")
                then call (EvConvert (mode image) "RGB")
                       (Image_convert env image "RGB")
                else ret image) ;;
      (* Preprocess *)
      img_tensor <- call EvPreprocess (preprocess env image) ;;
      (* Inference *)
      outputs <- call_rng EvForward (forward env net img_tensor) ;;
      probabilities <- call EvSoftmax (inr (torch_softmax env outputs)) ;;
      (* index 0 = real, index 1 = fake *)
      let fake_prob := snd probabilities in
      let real_prob := fst probabilities in
      let is_fake := float_gt fake_prob (Fin (1 # 2)) in
      let confidence := if is_fake then fake_prob else real_prob in
      let label := if is_fake then "FAKE" else "REAL" in
      ret (dict_literal
             [("is_fake", VBool is_fake);
              ("confidence", VFloat (float_round4 confidence));
              ("label", VStr label);
              ("probabilities",
               VDict (dict_literal
                        [("real", VFloat (float_round4 real_prob));
                         ("fake", VFloat (float_round4 fake_prob))]))])
  end.

(** [not file.content_type or not file.content_type.startswith("image/")] *)
Definition not_an_image (file : UploadFile) : bool :=
  match content_type file with
  | None => true
  | Some ct => negb (truthy ct) || negb (String.prefix "image/" ct)
  end.

Definition optional_str (o : option string) : value :=
  match o with
  | None => VNone
  | Some s => VStr s
  end.

(** [POST /predict] *)
Definition predict (file : UploadFile) : result HTTPException pydict :=
  (* Validate file type *)
  if not_an_image file
  then raise {| status_code := 400;
                detail := "File must be an image (JPEG, PNG, etc.)" |}
  else
    try_except
      (contents <- call EvRead (upload_read file) ;;
       image <- call EvImageOpen (Image_open env contents) ;;
       result <- predict_image image ;;
       ret (dict_literal
              ([("success", VBool true);
                ("filename", optional_str (filename file))] ++ result)))
      (fun e =>
         raise {| status_code := 500;
                  detail := "Error processing image: " ++ str_exn e |}).

End Service.

(** ** The other endpoints *)

Section Endpoints.

Variable env : Env.

(** [startup_event()]: the start-up hook; the value of [load_model] is
    dropped, its exception is not caught. *)
Definition startup_event : M unit :=
  load_model env ;;; ret tt.

(** [model is not None] *)
Definition is_not_None {A} (o : option A) : bool :=
  match o with
  | Some _ => true
  | None => false
  end.

(** [GET /health] *)
Definition health_check : M pydict :=
  m <- get_model ;;
  ret (dict_literal
         [("status", VStr "healthy");
          ("model_loaded", VBool (is_not_None m));
          ("device", VStr "cpu")]).

End Endpoints.

(** ** What a run computes with *)

Section Describing.

Variable env : Env.

(** The image handed to the transforms: the argument itself when its mode
    is RGB, its conversion otherwise. *)
Definition rgb_input (image : Image) : exn + Image :=
  if String.eqb (mode image) "RGB" then inr image
  else Image_convert env image "RGB".

(** The library calls of one run, in order. *)
Definition calls (image : Image) : list event :=
  (if String.eqb (mode image) "RGB" then []
   else [EvConvert (mode image) "RGB"])
  ++ [EvPreprocess; EvForward; EvSoftmax].

(** [inference s image real_prob fake_prob]: from state [s], the
    network of the global [model] runs on the preprocessed [image] and the
    softmax of its two logits is [(real_prob, fake_prob)], unrounded. *)
Definition inference
  (s : state) (image : Image) (real_prob fake_prob : pyfloat) : Prop :=
  exists net image' img_tensor outputs,
    model s = Some net
    /\ rgb_input image = inr image'
    /\ preprocess env image' = inr img_tensor
    /\ fst (forward env net img_tensor (rng s)) = inr outputs
    /\ torch_softmax env outputs = (real_prob, fake_prob).

(** The dictionary built from the two unrounded probabilities. *)
Definition report (real_prob fake_prob : pyfloat) : pydict :=
  [("is_fake", VBool (float_gt fake_prob (Fin (1 # 2))));
   ("confidence",
    VFloat (float_round4 (if float_gt fake_prob (Fin (1 # 2)) then fake_prob
                          else real_prob)));
   ("label",
    VStr (if float_gt fake_prob (Fin (1 # 2)) then "FAKE" else "REAL"));
   ("probabilities",
    VDict [("real", VFloat (float_round4 real_prob));
           ("fake", VFloat (float_round4 fake_prob))])].

End Describing.

(** ** A small concrete environment

    A two-parameter linear classifier with a dropout layer, an image library
    that only relabels the mode, and a softmax in exact arithmetic over a step
    function in place of the exponential, which answers nan when a logit is
    not finite.  It is used to run the service on concrete inputs. *)

Module Toy.

Definition step_exp (x : Q) : Q := Qpower 2 (Qfloor x).

Definition sum (x : Tensor) : Q := fold_right Qplus 0 x.

Definition weight (name : string) (m : Module) : Q :=
  match find (fun kv => String.eqb (fst kv) name) (params m) with
  | Some (_, w :: _) => w
  | _ => 0
  end.

(** In training mode every other draw of the generator drops the
    input; in evaluation mode nothing is dropped. *)
Definition dropout_linear (m : Module) (x : Tensor) (g : N)
  : (exn + pyfloat * pyfloat) * N :=
  if training m
  then (inr (if N.even g then (Fin 0, Fin 0)
             else (Fin (weight "real" m * sum x),
                   Fin (weight "fake" m * sum x))),
        N.succ g)
  else (inr (Fin (weight "real" m * sum x), Fin (weight "fake" m * sum x)),
        g).

Definition softmax (outputs : pyfloat * pyfloat) : pyfloat * pyfloat :=
  match outputs with
  | (Fin a, Fin b) =>
      (Fin (step_exp a / (step_exp a + step_exp b)),
       Fin (step_exp b / (step_exp a + step_exp b)))
  | _ => (NaN, NaN)
  end.

Definition checkpoint : StateDict := [("real", [1]); ("fake", [3])].

Definition env : Env :=
  {| MODEL_PATH := "/srv/backend/models/best_effnetb0.pth";
     path_exists := fun p =>
       String.eqb p "/srv/backend/models/best_effnetb0.pth";
     timm_create_model := fun _ _ _ g =>
       (inr {| params := [("real", [inject_Z (Z.of_N g)]); ("fake", [0])];
               training := true |}, N.succ g);
     torch_load := fun _ => inr checkpoint;
     load_state_dict := fun m sd =>
       ({| params := sd; training := training m |}, inr tt);
     module_to := fun m => inr m;
     Image_open := fun b =>
       match b with
       | [] => inl (LibraryError "UnidentifiedImageError"
                      "cannot identify image file")
       | _ => inr {| mode := "L"; size := (1%Z, Z.of_nat (List.length b));
                     pixels := map (fun c => Z.of_N (Byte.to_N c)) b |}
       end;
     Image_convert := fun i m =>
       inr {| mode := m; size := size i; pixels := pixels i |};
     preprocess := fun i =>
       inr (map (fun p => Qred (inject_Z p / 255)) (pixels i));
     forward := dropout_linear;
     torch_softmax := softmax |}.

(** The state of the process before start-up and after it. *)
Definition fresh : state := {| model := None; rng := 0%N; trace := [] |}.

Definition started : state := fst (load_model env fresh).

Definition grey (p : Z) : Image :=
  {| mode := "L"; size := (1%Z, 1%Z); pixels := [p] |}.

Definition upload (ct : option string) (b : list Byte.byte) : UploadFile :=
  {| content_type := ct; filename := Some "face.png"; upload_read := inr b |}.

(** A white grey-level pixel: logits (1, 3), probabilities 0.2 and 0.8. *)
Definition white : Image := grey 255.
Definition white_rgb : Image :=
  {| mode := "RGB"; size := (1%Z, 1%Z); pixels := [255%Z] |}.
Definition white_logits : pyfloat * pyfloat :=
  (Fin (1 * (1 + 0)), Fin (3 * (1 + 0))).
Definition white_report : pydict :=
  [("is_fake", VBool true);
   ("confidence", VFloat (Fin (8000 # 10000)));
   ("label", VStr "FAKE");
   ("probabilities",
    VDict [("real", VFloat (Fin (2000 # 10000)));
           ("fake", VFloat (Fin (8000 # 10000)))])].

(** A grey pixel at one third: logits (1/3, 1), probabilities 1/3 and 2/3,
    reported as 0.3333 and 0.6667. *)
Definition third : Image := grey 85.
Definition third_report : pydict :=
  [("is_fake", VBool true);
   ("confidence", VFloat (Fin (6667 # 10000)));
   ("label", VStr "FAKE");
   ("probabilities",
    VDict [("real", VFloat (Fin (3333 # 10000)));
           ("fake", VFloat (Fin (6667 # 10000)))])].

(** A black pixel: logits (0, 0), probabilities 0.5 and 0.5. *)
Definition black : Image := grey 0.
Definition black_report : pydict :=
  [("is_fake", VBool false);
   ("confidence", VFloat (Fin (5000 # 10000)));
   ("label", VStr "REAL");
   ("probabilities",
    VDict [("real", VFloat (Fin (5000 # 10000)));
           ("fake", VFloat (Fin (5000 # 10000)))])].

Definition png (b : list Byte.byte) : UploadFile :=
  upload (Some "image/png") b.
Definition text : UploadFile := upload (Some "text/plain") [Byte.x68].

End Toy.

(** ** Environments in which a library call fails *)

Module Faulty.

(** The checkpoint file is absent. *)
Definition no_checkpoint : Env :=
  {| MODEL_PATH := MODEL_PATH Toy.env;
     path_exists := fun _ => false;
     timm_create_model := timm_create_model Toy.env;
     torch_load := torch_load Toy.env;
     load_state_dict := load_state_dict Toy.env;
     module_to := module_to Toy.env;
     Image_open := Image_open Toy.env;
     Image_convert := Image_convert Toy.env;
     preprocess := preprocess Toy.env;
     forward := forward Toy.env;
     torch_softmax := torch_softmax Toy.env |}.

Definition bad_pickle : exn :=
  LibraryError "UnpicklingError" "invalid load key".

(** The checkpoint file is there and cannot be read. *)
Definition corrupt_checkpoint : Env :=
  {| MODEL_PATH := MODEL_PATH Toy.env;
     path_exists := path_exists Toy.env;
     timm_create_model := timm_create_model Toy.env;
     torch_load := fun _ => inl bad_pickle;
     load_state_dict := load_state_dict Toy.env;
     module_to := module_to Toy.env;
     Image_open := Image_open Toy.env;
     Image_convert := Image_convert Toy.env;
     preprocess := preprocess Toy.env;
     forward := forward Toy.env;
     torch_softmax := torch_softmax Toy.env |}.

Definition truncated : exn :=
  LibraryError "OSError" "image file is truncated".

(** The image library cannot convert. *)
Definition no_convert : Env :=
  {| MODEL_PATH := MODEL_PATH Toy.env;
     path_exists := path_exists Toy.env;
     timm_create_model := timm_create_model Toy.env;
     torch_load := torch_load Toy.env;
     load_state_dict := load_state_dict Toy.env;
     module_to := module_to Toy.env;
     Image_open := Image_open Toy.env;
     Image_convert := fun _ _ => inl truncated;
     preprocess := preprocess Toy.env;
     forward := forward Toy.env;
     torch_softmax := torch_softmax Toy.env |}.

(** The network answers nan logits (its weights have overflowed). *)
Definition nan_logits : Env :=
  {| MODEL_PATH := MODEL_PATH Toy.env;
     path_exists := path_exists Toy.env;
     timm_create_model := timm_create_model Toy.env;
     torch_load := torch_load Toy.env;
     load_state_dict := load_state_dict Toy.env;
     module_to := module_to Toy.env;
     Image_open := Image_open Toy.env;
     Image_convert := Image_convert Toy.env;
     preprocess := preprocess Toy.env;
     forward := fun _ _ g => (inr (NaN, NaN), g);
     torch_softmax := torch_softmax Toy.env |}.

(** What [predict_image] then returns. *)
Definition nan_report : pydict :=
  [("is_fake", VBool false);
   ("confidence", VFloat NaN);
   ("label", VStr "REAL");
   ("probabilities",
    VDict [("real", VFloat NaN); ("fake", VFloat NaN)])].

(** The module the toy [timm] creates from generator state 0. *)
Definition untrained : Module :=
  {| params := [("real", [inject_Z 0]); ("fake", [0])]; training := true |}.

End Faulty.

(** * Properties *)

(** ** Rounding *)

Lemma Qgtb_lt (a b : Q) : Qgtb a b = true <-> b < a.
Proof.
  unfold Qgtb. split; intros H.
  - apply Qgt_alt. destruct (a ?= b); congruence.
  - apply Qgt_alt in H. rewrite H. reflexivity.
Qed.

Lemma Qgtb_le (a b : Q) : Qgtb a b = false <-> a <= b.
Proof.
  split; intros H.
  - apply Qnot_lt_le. intros L. apply Qgtb_lt in L. congruence.
  - apply not_true_iff_false. intros T. apply Qgtb_lt in T.
    exact (Qle_not_lt _ _ H T).
Qed.

#[local] Instance round_half_even_comp : Proper (Qeq ==> eq) round_half_even.
Proof.
  intros x y E. unfold round_half_even.
  rewrite (Qfloor_comp _ _ E).
  assert (E' : x - inject_Z (Qfloor y) == y - inject_Z (Qfloor y))
    by (rewrite E; reflexivity).
  rewrite (Qcompare_comp _ _ E' _ _ (Qeq_refl (1 # 2))).
  reflexivity.
Qed.

(** The rounded integer is within one half of the number. *)
Lemma round_half_even_near (x : Q) :
  inject_Z (round_half_even x) - (1 # 2) <= x
  /\ x <= inject_Z (round_half_even x) + (1 # 2).
Proof.
  unfold round_half_even.
  pose proof (Qfloor_le x) as Hlo.
  pose proof (Qlt_floor x) as Hhi.
  rewrite inject_Z_plus in Hhi. change (inject_Z 1) with 1 in Hhi.
  destruct (Qcompare_spec (x - inject_Z (Qfloor x)) (1 # 2)) as [E | L | G].
  - destruct (Z.even (Qfloor x)).
    + split; lra.
    + rewrite inject_Z_plus. change (inject_Z 1) with 1. split; lra.
  - split; lra.
  - rewrite inject_Z_plus. change (inject_Z 1) with 1. split; lra.
Qed.

Lemma round_half_even_mono (x y : Q) :
  x <= y -> (round_half_even x <= round_half_even y)%Z.
Proof.
  intros Hxy.
  destruct (round_half_even_near x) as [Hx _].
  destruct (round_half_even_near y) as [_ Hy].
  assert (H1 : inject_Z (round_half_even x)
               <= inject_Z (round_half_even y + 1)).
  { rewrite inject_Z_plus. change (inject_Z 1) with 1. lra. }
  rewrite <- Zle_Qle in H1.
  destruct (Z.eq_dec (round_half_even x) (round_half_even y + 1)) as [E | NE];
    [ | lia ].
  exfalso.
  assert (Exy : x == y).
  { rewrite E, inject_Z_plus in Hx. change (inject_Z 1) with 1 in Hx. lra. }
  rewrite (round_half_even_comp _ _ Exy) in E. lia.
Qed.

Lemma round_half_even_Z (z : Z) : round_half_even (inject_Z z) = z.
Proof.
  unfold round_half_even. rewrite Qfloor_Z.
  destruct (Qcompare_spec (inject_Z z - inject_Z z) (1 # 2)) as [E | L | G];
    [ exfalso; lra | reflexivity | exfalso; lra ].
Qed.

Lemma round4_Qdiv (x : Q) :
  round4 x == inject_Z (round_half_even (x * 10000)) / 10000.
Proof. unfold round4. apply Qmake_Qdiv. Qed.

(** [round(x, 4)] is within half a unit of the fourth decimal of [x]. *)
Lemma round4_near (x : Q) : Qabs (round4 x - x) <= 1 # 20000.
Proof.
  rewrite round4_Qdiv.
  destruct (round_half_even_near (x * 10000)) as [Hlo Hhi].
  apply Qabs_Qle_condition.
  set (r := inject_Z (round_half_even (x * 10000))) in *.
  assert (E : r / 10000 == r * (1 # 10000)) by (field).
  rewrite E. split; lra.
Qed.

Lemma round4_mono (x y : Q) : x <= y -> round4 x <= round4 y.
Proof.
  intros Hxy. unfold round4, Qle. simpl.
  apply Z.mul_le_mono_nonneg_r; [ lia | ].
  apply round_half_even_mono. lra.
Qed.

Lemma round4_half : round4 (1 # 2) == 1 # 2.
Proof. reflexivity. Qed.


(** ** Comparison and rounding of floats *)

(** [x > 0.5] holds of the finite floats above one half and of the positive
    infinity, and of nothing else. *)
Lemma float_gt_half (x : pyfloat) :
  float_gt x (Fin (1 # 2)) = true
  <-> (x = PosInf \/ exists q, x = Fin q /\ 1 # 2 < q).
Proof.
  destruct x as [q | | | ]; simpl.
  - rewrite Qgtb_lt. split.
    + intros H. right. exists q. split; [ reflexivity | exact H ].
    + intros [H | (q' & H & L)]; [ discriminate | ].
      injection H as ->. exact L.
  - split; [ intros _; left; reflexivity | reflexivity ].
  - split; [ discriminate | ].
    intros [H | (q & H & _)]; discriminate.
  - split; [ discriminate | ].
    intros [H | (q & H & _)]; discriminate.
Qed.

(** ** One run of [predict_image] *)

Ltac run :=
  cbv beta iota zeta
    delta [bind ret raise call call_rng emit logged get_model set_model
             try_except]
    in *;
  simpl in *.

Section RunLemmas.

Variable env : Env.

Lemma predict_image_not_loaded (s : state) (image : Image) :
  model s = None ->
  predict_image env image s = (s, inl (RuntimeError "Model not loaded")).
Proof.
  intros H. unfold predict_image. run. rewrite H. reflexivity.
Qed.

(** A run whose library calls all succeed. *)
Lemma predict_image_ok (s : state) (image : Image) net image' x outputs g :
  model s = Some net ->
  rgb_input env image = inr image' ->
  preprocess env image' = inr x ->
  forward env net x (rng s) = (inr outputs, g) ->
  predict_image env image s
  = ({| model := model s; rng := g; trace := trace s ++ calls image |},
     inr (report (fst (torch_softmax env outputs))
                 (snd (torch_softmax env outputs)))).
Proof.
  intros Hm Hc Hp Hf. unfold predict_image, rgb_input, calls in *. run.
  rewrite Hm.
  destruct (String.eqb (mode image) "RGB"); simpl in *.
  - injection Hc as <-. rewrite Hp. simpl. rewrite Hf. simpl.
    rewrite <- !app_assoc, ?Hm. reflexivity.
  - rewrite Hc. simpl. rewrite Hp. simpl. rewrite Hf. simpl.
    rewrite <- !app_assoc, ?Hm. reflexivity.
Qed.

(** Every returned dictionary comes from such a run. *)
Lemma predict_image_inv (s : state) (image : Image) (res : pydict) :
  snd (predict_image env image s) = inr res ->
  exists real_prob fake_prob,
    inference env s image real_prob fake_prob
    /\ res = report real_prob fake_prob
    /\ trace (fst (predict_image env image s)) = trace s ++ calls image.
Proof.
  unfold predict_image, inference, rgb_input, calls. run.
  destruct (model s) as [net | ] eqn:Hm; [ | discriminate ].
  destruct (String.eqb (mode image) "RGB") eqn:Hrgb; simpl.
  - destruct (preprocess env image) as [e | x] eqn:Hp; simpl;
      [ discriminate | ].
    destruct (forward env net x (rng s)) as [[e | outputs] g] eqn:Hf; simpl;
      [ discriminate | ].
    intros H. injection H as <-.
    exists (fst (torch_softmax env outputs)),
      (snd (torch_softmax env outputs)).
    split; [ | split ].
    + exists net, image, x, outputs. rewrite Hf.
      repeat split; try reflexivity; try assumption.
      apply surjective_pairing.
    + reflexivity.
    + rewrite <- !app_assoc. reflexivity.
  - destruct (Image_convert env image "RGB") as [e | image'] eqn:Hc; simpl;
      [ discriminate | ].
    destruct (preprocess env image') as [e | x] eqn:Hp; simpl;
      [ discriminate | ].
    destruct (forward env net x (rng s)) as [[e | outputs] g] eqn:Hf; simpl;
      [ discriminate | ].
    intros H. injection H as <-.
    exists (fst (torch_softmax env outputs)),
      (snd (torch_softmax env outputs)).
    split; [ | split ].
    + exists net, image', x, outputs. rewrite Hf.
      repeat split; try reflexivity; try assumption.
      apply surjective_pairing.
    + reflexivity.
    + rewrite <- !app_assoc. reflexivity.
Qed.

(** [predict_image] never assigns the global [model]. *)
Lemma predict_image_model (s : state) (image : Image) :
  model (fst (predict_image env image s)) = model s.
Proof.
  unfold predict_image. run.
  destruct (model s) as [net | ] eqn:Hm; simpl; [ | assumption ].
  destruct (String.eqb (mode image) "RGB"); simpl.
  - destruct (preprocess env image) as [e | x]; simpl; [ assumption | ].
    destruct (forward env net x (rng s)) as [[e | outputs] g]; simpl;
      assumption.
  - destruct (Image_convert env image "RGB") as [e | image']; simpl;
      [ assumption | ].
    destruct (preprocess env image') as [e | x]; simpl; [ assumption | ].
    destruct (forward env net x (rng s)) as [[e | outputs] g]; simpl;
      assumption.
Qed.

(** Once the global [model] is set and the image is converted and
    preprocessed, the network runs, and the run ends as the network does:
    with its exception, or with the report of the softmax of its logits. *)
Lemma predict_image_forward (s : state) (image : Image) net image' x :
  model s = Some net ->
  rgb_input env image = inr image' ->
  preprocess env image' = inr x ->
  snd (predict_image env image s)
  = match fst (forward env net x (rng s)) with
    | inl e => inl e
    | inr outputs => inr (report (fst (torch_softmax env outputs))
                                 (snd (torch_softmax env outputs)))
    end
  /\ exists before later,
      trace (fst (predict_image env image s))
      = trace s ++ before ++ [EvPreprocess; EvForward] ++ later.
Proof.
  intros Hm Hc Hp. unfold predict_image, rgb_input in *. run. rewrite Hm.
  destruct (String.eqb (mode image) "RGB"); simpl in *.
  - injection Hc as <-. rewrite Hp. simpl.
    destruct (forward env net x (rng s)) as [[e | outputs] g]; simpl.
    + split; [ reflexivity | ]. exists [], [].
      rewrite <- !app_assoc. reflexivity.
    + split; [ reflexivity | ]. exists [], [EvSoftmax].
      rewrite <- !app_assoc. reflexivity.
  - rewrite Hc. simpl. rewrite Hp. simpl.
    destruct (forward env net x (rng s)) as [[e | outputs] g]; simpl.
    + split; [ reflexivity | ]. exists [EvConvert (mode image) "RGB"], [].
      rewrite <- !app_assoc. reflexivity.
    + split; [ reflexivity | ].
      exists [EvConvert (mode image) "RGB"], [EvSoftmax].
      rewrite <- !app_assoc. reflexivity.
Qed.

(** In evaluation mode the outcome of a run depends on the image and on
    the module only, not on the random generator nor on earlier calls. *)
Lemma predict_image_eval (t1 t2 : state) (net : Module) (image : Image) :
  eval_deterministic env ->
  model t1 = Some net -> model t2 = Some net -> training net = false ->
  snd (predict_image env image t1) = snd (predict_image env image t2).
Proof.
  intros Hd H1 H2 Ht. unfold predict_image. run. rewrite H1, H2.
  destruct (String.eqb (mode image) "RGB"); simpl.
  - destruct (preprocess env image) as [e | x]; simpl; [ reflexivity | ].
    pose proof (Hd net x (rng t1) (rng t2) Ht) as Hf.
    destruct (forward env net x (rng t1)) as [[e1 | o1] g1];
      destruct (forward env net x (rng t2)) as [[e2 | o2] g2];
      simpl in *; try discriminate; injection Hf as ->; reflexivity.
  - destruct (Image_convert env image "RGB") as [e | image']; simpl;
      [ reflexivity | ].
    destruct (preprocess env image') as [e | x]; simpl; [ reflexivity | ].
    pose proof (Hd net x (rng t1) (rng t2) Ht) as Hf.
    destruct (forward env net x (rng t1)) as [[e1 | o1] g1];
      destruct (forward env net x (rng t2)) as [[e2 | o2] g2];
      simpl in *; try discriminate; injection Hf as ->; reflexivity.
Qed.

(** A start-up that returns leaves a module in evaluation mode in the
    global [model]. *)
Lemma load_model_eval (s0 : state) (b : bool) :
  snd (load_model env s0) = inr b ->
  exists net,
    model (fst (load_model env s0)) = Some net /\ training net = false.
Proof.
  unfold load_model, create_model. run.
  destruct (path_exists env (MODEL_PATH env)); simpl; [ | discriminate ].
  destruct (timm_create_model env "efficientnet_b0" false 2 (rng s0))
    as [[e | net] g]; simpl; [ discriminate | ].
  destruct (torch_load env (MODEL_PATH env)) as [e | sd]; simpl;
    [ discriminate | ].
  destruct (load_state_dict env net sd) as [net1 [e | []]]; simpl;
    [ discriminate | ].
  destruct (module_to env net1) as [e | net2]; simpl; [ discriminate | ].
  intros _. exists (eval net2). split; reflexivity.
Qed.

(** The two probabilities of a run are determined by the state and the
    image. *)
Lemma inference_functional (s : state) (image : Image) r1 f1 r2 f2 :
  inference env s image r1 f1 ->
  inference env s image r2 f2 ->
  r1 = r2 /\ f1 = f2.
Proof.
  intros (net1 & i1 & x1 & o1 & Hm1 & Hc1 & Hp1 & Hf1 & Hs1)
         (net2 & i2 & x2 & o2 & Hm2 & Hc2 & Hp2 & Hf2 & Hs2).
  rewrite Hm1 in Hm2. injection Hm2 as <-.
  rewrite Hc1 in Hc2. injection Hc2 as <-.
  rewrite Hp1 in Hp2. injection Hp2 as <-.
  rewrite Hf1 in Hf2. injection Hf2 as <-.
  rewrite Hs1 in Hs2. injection Hs2 as <- <-.
  split; reflexivity.
Qed.

(** The dictionary of a run whose two probabilities are known. *)
Lemma predict_image_report
  (s : state) (image : Image) (res : pydict) real_prob fake_prob :
  snd (predict_image env image s) = inr res ->
  inference env s image real_prob fake_prob ->
  res = report real_prob fake_prob.
Proof.
  intros H Hrun.
  destruct (predict_image_inv s image res H) as (r & f & Hrun' & -> & _).
  destruct (inference_functional s image r f real_prob fake_prob Hrun' Hrun)
    as [-> ->].
  reflexivity.
Qed.

End RunLemmas.


(** ** Rounding near one half *)

Lemma round4_comp (x y : Q) : x == y -> round4 x = round4 y.
Proof.
  intros E. unfold round4.
  assert (E' : x * 10000 == y * 10000) by (rewrite E; reflexivity).
  rewrite (round_half_even_comp _ _ E'). reflexivity.
Qed.

(** Every number within half a unit of the fourth decimal of 0.5 is
    rounded to 0.5. *)
Lemma round4_half_band (x : Q) :
  49995 # 100000 <= x -> x <= 50005 # 100000 -> round4 x = 5000 # 10000.
Proof.
  intros Hlo Hhi. unfold round4. f_equal.
  assert (L : (round_half_even ((49995 # 100000) * 10000)
               <= round_half_even (x * 10000))%Z)
    by (apply round_half_even_mono; lra).
  assert (U : (round_half_even (x * 10000)
               <= round_half_even ((50005 # 100000) * 10000))%Z)
    by (apply round_half_even_mono; lra).
  change (round_half_even ((49995 # 100000) * 10000)) with 5000%Z in L.
  change (round_half_even ((50005 # 100000) * 10000)) with 5000%Z in U.
  lia.
Qed.

(** When the two probabilities add up to 1 within half a unit of the fourth
    decimal, the one the decision rule picks is rounded like the larger
    one. *)
Lemma round4_choice (real_prob fake_prob : Q) :
  Qabs (real_prob + fake_prob - 1) <= 1 # 20000 ->
  round4 (if Qgtb fake_prob (1 # 2) then fake_prob else real_prob)
  = round4 (Qmax real_prob fake_prob).
Proof.
  intros H. apply Qabs_Qle_condition in H. destruct H as [Hlo Hhi].
  destruct (Q.max_spec real_prob fake_prob) as [[L E] | [L E]];
    destruct (Qgtb fake_prob (1 # 2)) eqn:Hd.
  - apply round4_comp. symmetry. exact E.
  - apply Qgtb_le in Hd.
    rewrite (round4_comp _ _ E).
    rewrite (round4_half_band real_prob) by lra.
    rewrite (round4_half_band fake_prob) by lra.
    reflexivity.
  - apply Qgtb_lt in Hd.
    rewrite (round4_comp _ _ E).
    rewrite (round4_half_band real_prob) by lra.
    rewrite (round4_half_band fake_prob) by lra.
    reflexivity.
  - apply round4_comp. symmetry. exact E.
Qed.

(** ** The decision rule and the reported numbers *)

(** C1.  In every dictionary returned by [predict_image], [is_fake] is true
    exactly when the unrounded fake-class probability is strictly greater
    than 0.5 (a finite float above one half, or the positive infinity; never
    nan); when that probability is exactly 0.5, [is_fake] is false and the
    label is "REAL". *)
Theorem is_fake_strict_threshold
  (env : Env) (s : state) (image : Image) (res : pydict) :
  snd (predict_image env image s) = inr res ->
  exists real_prob fake_prob is_fake,
    inference env s image real_prob fake_prob
    /\ dict_get "is_fake" res = Some (VBool is_fake)
    /\ (is_fake = true
        <-> (fake_prob = PosInf \/ exists q, fake_prob = Fin q /\ 1 # 2 < q))
    /\ (forall q,
           fake_prob = Fin q -> q == 1 # 2 ->
           is_fake = false /\ dict_get "label" res = Some (VStr "REAL")).
Proof.
  intros H.
  destruct (predict_image_inv env s image res H)
    as (real_prob & fake_prob & Hrun & -> & _).
  exists real_prob, fake_prob, (float_gt fake_prob (Fin (1 # 2))).
  split; [ exact Hrun | ].
  split; [ reflexivity | ].
  split; [ apply float_gt_half | ].
  intros q -> Ehalf.
  assert (Hno : float_gt (Fin q) (Fin (1 # 2)) = false)
    by (simpl; apply Qgtb_le; lra).
  split; [ exact Hno | ].
  unfold report. rewrite Hno. reflexivity.
Qed.

(** C2.  In every returned dictionary, [confidence] is the rounded
    probability of the class named by [label]: the rounded fake probability,
    reported as [probabilities.fake], under "FAKE", and the rounded real
    probability, reported as [probabilities.real], under "REAL". *)
Theorem confidence_of_label
  (env : Env) (s : state) (image : Image) (res : pydict) :
  snd (predict_image env image s) = inr res ->
  exists real_prob fake_prob,
    inference env s image real_prob fake_prob
    /\ dict_get "probabilities" res
       = Some (VDict [("real", VFloat (float_round4 real_prob));
                      ("fake", VFloat (float_round4 fake_prob))])
    /\ ((dict_get "label" res = Some (VStr "FAKE")
         /\ dict_get "confidence" res
            = Some (VFloat (float_round4 fake_prob)))
        \/ (dict_get "label" res = Some (VStr "REAL")
            /\ dict_get "confidence" res
               = Some (VFloat (float_round4 real_prob)))).
Proof.
  intros H.
  destruct (predict_image_inv env s image res H)
    as (real_prob & fake_prob & Hrun & -> & _).
  exists real_prob, fake_prob.
  split; [ exact Hrun | ].
  split; [ reflexivity | ].
  unfold report. simpl dict_get.
  destruct (float_gt fake_prob (Fin (1 # 2))).
  - left. split; reflexivity.
  - right. split; reflexivity.
Qed.


(** C6.  The three reported numbers are the roundings to four decimals of
    the unrounded softmax values, made when the dictionary is built; the
    [is_fake] decision and the choice between the two probabilities for
    [confidence] compare the unrounded fake probability with 0.5. *)
Theorem rounding_only_in_report
  (env : Env) (s : state) (image : Image) (res : pydict) :
  snd (predict_image env image s) = inr res ->
  exists real_prob fake_prob,
    inference env s image real_prob fake_prob
    /\ dict_get "is_fake" res
       = Some (VBool (float_gt fake_prob (Fin (1 # 2))))
    /\ dict_get "confidence" res
       = Some (VFloat (float_round4
                         (if float_gt fake_prob (Fin (1 # 2)) then fake_prob
                          else real_prob)))
    /\ dict_get "probabilities" res
       = Some (VDict [("real", VFloat (float_round4 real_prob));
                      ("fake", VFloat (float_round4 fake_prob))])
    /\ (forall q,
           real_prob = Fin q ->
           float_round4 real_prob = Fin (round4 q)
           /\ Qabs (round4 q - q) <= 1 # 20000)
    /\ (forall q,
           fake_prob = Fin q ->
           float_round4 fake_prob = Fin (round4 q)
           /\ Qabs (round4 q - q) <= 1 # 20000).
Proof.
  intros H.
  destruct (predict_image_inv env s image res H)
    as (real_prob & fake_prob & Hrun & -> & _).
  exists real_prob, fake_prob.
  split; [ exact Hrun | ].
  repeat split; try reflexivity.
  - subst real_prob. reflexivity.
  - apply round4_near.
  - subst fake_prob. reflexivity.
  - apply round4_near.
Qed.

(** C10, as amended.  When the two softmax outputs of a run are finite and
    add up to 1 within half a unit of the fourth decimal, [confidence] is
    the rounded larger one of the two class probabilities, and it is at
    least 0.5. *)
Theorem finite_confidence_is_rounded_max
  (env : Env) (s : state) (image : Image) (res : pydict)
  (real_prob fake_prob : Q) :
  snd (predict_image env image s) = inr res ->
  inference env s image (Fin real_prob) (Fin fake_prob) ->
  Qabs (real_prob + fake_prob - 1) <= 1 # 20000 ->
  dict_get "confidence" res
  = Some (VFloat (Fin (round4 (Qmax real_prob fake_prob))))
  /\ 1 # 2 <= round4 (Qmax real_prob fake_prob).
Proof.
  intros H Hrun Hsum.
  rewrite (predict_image_report env s image res _ _ H Hrun).
  split.
  - unfold report. simpl dict_get.
    rewrite <- (round4_choice real_prob fake_prob Hsum).
    destruct (Qgtb fake_prob (1 # 2)); reflexivity.
  - apply Qabs_Qle_condition in Hsum. destruct Hsum as [Hlo Hhi].
    assert (Hmax : 49995 # 100000 <= Qmax real_prob fake_prob).
    { pose proof (Q.le_max_l real_prob fake_prob) as L1.
      pose proof (Q.le_max_r real_prob fake_prob) as L2.
      lra. }
    pose proof (round4_mono _ _ Hmax) as M.
    assert (E : round4 (49995 # 100000) == 1 # 2) by reflexivity.
    lra.
Qed.

(** ** The guard on the global [model] *)

(** C3.  While the global [model] is [None], [predict_image] raises
    [RuntimeError("Model not loaded")] and leaves the state as it was: no
    conversion, no transform and no network call is recorded.  After a
    [load_model] that returned, the global holds a module and the same call,
    once the image is converted and preprocessed, runs the network on the
    tensor and ends as the network does. *)
Theorem model_not_loaded_guard (env : Env) (image : Image) :
  (forall s,
      model s = None ->
      predict_image env image s = (s, inl (RuntimeError "Model not loaded")))
  /\ (forall s0 b image' x,
         snd (load_model env s0) = inr b ->
         rgb_input env image = inr image' ->
         preprocess env image' = inr x ->
         exists net before later,
           model (fst (load_model env s0)) = Some net
           /\ trace (fst (predict_image env image (fst (load_model env s0))))
              = trace (fst (load_model env s0))
                ++ before ++ [EvPreprocess; EvForward] ++ later
           /\ snd (predict_image env image (fst (load_model env s0)))
              = match fst (forward env net x (rng (fst (load_model env s0))))
                with
                | inl e => inl e
                | inr outputs =>
                    inr (report (fst (torch_softmax env outputs))
                                (snd (torch_softmax env outputs)))
                end).
Proof.
  split.
  - intros s Hs. apply predict_image_not_loaded. exact Hs.
  - intros s0 b image' x Hload Hc Hp.
    destruct (load_model_eval env s0 b Hload) as (net & Hm & _).
    destruct (predict_image_forward env _ image net image' x Hm Hc Hp)
      as (Hres & before & later & Htr).
    exists net, before, later. repeat split; assumption.
Qed.

(** ** Determinism *)

(** C4.  After a [load_model] that returned, two runs of [predict_image] on
    the same image, from any two states that hold the loaded module
    (whatever the random generator and the calls made before), end the same
    way: the same dictionary, hence the same label and confidence, or the
    same exception.  A run leaves the loaded module in place for the next
    one. *)
Theorem inference_deterministic
  (env : Env) (s0 : state) (b : bool) (image : Image) (t1 t2 : state) :
  eval_deterministic env ->
  snd (load_model env s0) = inr b ->
  model t1 = model (fst (load_model env s0)) ->
  model t2 = model (fst (load_model env s0)) ->
  snd (predict_image env image t1) = snd (predict_image env image t2)
  /\ model (fst (predict_image env image t1)) = model (fst (load_model env s0)).
Proof.
  intros Hd Hload H1 H2.
  destruct (load_model_eval env s0 b Hload) as (net & Hm & Ht).
  rewrite Hm in H1, H2. split.
  - exact (predict_image_eval env t1 t2 net image Hd H1 H2 Ht).
  - rewrite predict_image_model, Hm. exact H1.
Qed.

(** ** Colour modes *)

(** C8.  With a module loaded, an image whose mode is not "RGB" is converted
    once with [convert("RGB")], the converted image is preprocessed and
    classified, and the call returns the report with no exception; an image
    whose mode is "RGB" is preprocessed as it is, with no conversion. *)
Theorem non_rgb_converted
  (env : Env) (s : state) (image image' : Image) net x outputs g :
  model s = Some net ->
  preprocess env image' = inr x ->
  forward env net x (rng s) = (inr outputs, g) ->
  (mode image <> "RGB" ->
   Image_convert env image "RGB" = inr image' ->
   predict_image env image s
   = ({| model := model s; rng := g;
         trace := trace s ++ [EvConvert (mode image) "RGB";
                              EvPreprocess; EvForward; EvSoftmax] |},
      inr (report (fst (torch_softmax env outputs))
                  (snd (torch_softmax env outputs)))))
  /\ (mode image = "RGB" ->
      image' = image ->
      predict_image env image s
      = ({| model := model s; rng := g;
            trace := trace s ++ [EvPreprocess; EvForward; EvSoftmax] |},
         inr (report (fst (torch_softmax env outputs))
                     (snd (torch_softmax env outputs))))).
Proof.
  intros Hm Hp Hf. split.
  - intros Hmode Hc.
    assert (Hneq : String.eqb (mode image) "RGB" = false)
      by (apply String.eqb_neq; exact Hmode).
    rewrite (predict_image_ok env s image net image' x outputs g Hm);
      try assumption.
    + unfold calls. rewrite Hneq. reflexivity.
    + unfold rgb_input. rewrite Hneq. exact Hc.
  - intros Hmode ->.
    assert (Heq : String.eqb (mode image) "RGB" = true)
      by (apply String.eqb_eq; exact Hmode).
    rewrite (predict_image_ok env s image net image x outputs g Hm);
      try assumption.
    + unfold calls. rewrite Heq. reflexivity.
    + unfold rgb_input. rewrite Heq. reflexivity.
Qed.

(** ** The request boundary *)

Lemma image_type_accepted (file : UploadFile) (ct : string) :
  content_type file = Some ct ->
  String.prefix "image/" ct = true ->
  not_an_image file = false.
Proof.
  intros Hct Hp. unfold not_an_image. rewrite Hct, Hp.
  destruct ct; [ discriminate | reflexivity ].
Qed.

(** C7.  When the declared content type is absent or does not start with
    "image/", the handler raises [HTTPException(400)] and leaves the state
    as it was: the upload is not read, nothing is decoded and the network is
    not called. *)
Theorem non_image_rejected (env : Env) (file : UploadFile) (s : state) :
  (content_type file = None
   \/ exists ct, content_type file = Some ct
                 /\ String.prefix "image/" ct = false) ->
  predict env file s
  = (s, inl {| status_code := 400;
               detail := "File must be an image (JPEG, PNG, etc.)" |}).
Proof.
  intros H.
  assert (Hno : not_an_image file = true).
  { unfold not_an_image. destruct H as [-> | (ct & -> & ->)].
    - reflexivity.
    - apply orb_true_r. }
  unfold predict. rewrite Hno. reflexivity.
Qed.

(** C9.  When the declared content type starts with "image/", an exception
    raised by the read, by the decoding or by [predict_image] (conversion,
    transforms, network, or the guard on the global [model]) ends the
    request with [HTTPException(500)] whose detail is
    "Error processing image: " followed by the text of the exception; a
    dictionary is returned only when [predict_image] returned one. *)
Theorem failures_reported_500
  (env : Env) (file : UploadFile) (s : state) (ct : string) :
  content_type file = Some ct ->
  String.prefix "image/" ct = true ->
  (forall e,
      upload_read file = inl e ->
      predict env file s
      = (logged EvRead s,
         inl {| status_code := 500;
                detail := "Error processing image: " ++ str_exn e |}))
  /\ (forall contents e,
         upload_read file = inr contents ->
         Image_open env contents = inl e ->
         predict env file s
         = (logged EvImageOpen (logged EvRead s),
            inl {| status_code := 500;
                   detail := "Error processing image: " ++ str_exn e |}))
  /\ (forall contents image,
         upload_read file = inr contents ->
         Image_open env contents = inr image ->
         predict env file s
         = (fst (predict_image env image
                   (logged EvImageOpen (logged EvRead s))),
            match snd (predict_image env image
                         (logged EvImageOpen (logged EvRead s))) with
            | inl e =>
                inl {| status_code := 500;
                       detail := "Error processing image: " ++ str_exn e |}
            | inr result =>
                inr (dict_literal
                       ([("success", VBool true);
                         ("filename", optional_str (filename file))]
                          ++ result))
            end))
  /\ (forall contents image,
         upload_read file = inr contents ->
         Image_open env contents = inr image ->
         model s = None ->
         snd (predict env file s)
         = inl {| status_code := 500;
                  detail := "Error processing image: Model not loaded" |}).
Proof.
  intros Hct Hp.
  pose proof (image_type_accepted file ct Hct Hp) as Hok.
  assert (case3 : forall contents image,
             upload_read file = inr contents ->
             Image_open env contents = inr image ->
             predict env file s
             = (fst (predict_image env image
                       (logged EvImageOpen (logged EvRead s))),
                match snd (predict_image env image
                             (logged EvImageOpen (logged EvRead s))) with
                | inl e =>
                    inl {| status_code := 500;
                           detail := "Error processing image: " ++ str_exn e |}
                | inr result =>
                    inr (dict_literal
                           ([("success", VBool true);
                             ("filename", optional_str (filename file))]
                              ++ result))
                end)).
  { intros contents image Hr Ho. unfold predict. rewrite Hok.
    cbv beta iota zeta delta [bind ret raise call emit try_except].
    rewrite Hr, Ho.
    destruct (predict_image env image (logged EvImageOpen (logged EvRead s)))
      as [s' [e | result]]; reflexivity. }
  split; [ | split; [ | split ] ].
  - intros e Hr. unfold predict. rewrite Hok.
    cbv beta iota zeta delta [bind ret raise call emit try_except].
    rewrite Hr. reflexivity.
  - intros contents e Hr Ho. unfold predict. rewrite Hok.
    cbv beta iota zeta delta [bind ret raise call emit try_except].
    rewrite Hr, Ho. reflexivity.
  - exact case3.
  - intros contents image Hr Ho Hm.
    rewrite (case3 contents image Hr Ho).
    rewrite predict_image_not_loaded by exact Hm. reflexivity.
Qed.

(** * Concrete runs *)

Lemma toy_eval_deterministic : eval_deterministic Toy.env.
Proof.
  intros m x g g' Ht. simpl. unfold Toy.dropout_linear. rewrite Ht.
  reflexivity.
Qed.

(** Without [model.eval()] the toy network answers differently from one
    draw of the generator to the next. *)
Example toy_training_mode_is_random :
  let net := {| params := Toy.checkpoint; training := true |} in
  fst (forward Toy.env net [1] 0%N) <> fst (forward Toy.env net [1] 1%N).
Proof. vm_compute. discriminate. Qed.

(** A fake probability just above one half is a "FAKE" although it is
    reported as 0.5: the comparison is not made on the rounded number. *)
Example threshold_before_rounding :
  dict_get "is_fake"
    (report (Fin (49999 # 100000)) (Fin (50001 # 100000)))
  = Some (VBool true)
  /\ dict_get "confidence"
       (report (Fin (49999 # 100000)) (Fin (50001 # 100000)))
     = Some (VFloat (Fin (5000 # 10000)))
  /\ float_gt (float_round4 (Fin (50001 # 100000))) (Fin (1 # 2)) = false.
Proof. vm_compute. repeat split. Qed.

(** The unrounded probabilities of the three toy images. *)
Lemma toy_white_inference :
  inference Toy.env Toy.started Toy.white (Fin (2 # 10)) (Fin (8 # 10)).
Proof.
  exists {| params := Toy.checkpoint; training := false |},
    Toy.white_rgb, [1], Toy.white_logits.
  repeat split; vm_compute; reflexivity.
Qed.

Lemma toy_third_inference :
  inference Toy.env Toy.started Toy.third (Fin (1 # 3)) (Fin (2 # 3)).
Proof.
  exists {| params := Toy.checkpoint; training := false |},
    {| mode := "RGB"; size := (1%Z, 1%Z); pixels := [85%Z] |},
    [1 # 3], (Fin (1 * ((1 # 3) + 0)), Fin (3 * ((1 # 3) + 0))).
  repeat split; vm_compute; reflexivity.
Qed.

Lemma is_fake_strict_threshold_witness :
  snd (predict_image Toy.env Toy.black Toy.started) = inr Toy.black_report
  /\ exists real_prob fake_prob is_fake,
      inference Toy.env Toy.started Toy.black real_prob fake_prob
      /\ dict_get "is_fake" Toy.black_report = Some (VBool is_fake)
      /\ (is_fake = true
          <-> (fake_prob = PosInf
               \/ exists q, fake_prob = Fin q /\ 1 # 2 < q))
      /\ (forall q,
             fake_prob = Fin q -> q == 1 # 2 ->
             is_fake = false
             /\ dict_get "label" Toy.black_report = Some (VStr "REAL")).
Proof.
  split; [ vm_compute; reflexivity | ].
  apply (is_fake_strict_threshold Toy.env Toy.started Toy.black).
  vm_compute. reflexivity.
Defined.

Lemma confidence_of_label_witness :
  snd (predict_image Toy.env Toy.white Toy.started) = inr Toy.white_report
  /\ exists real_prob fake_prob,
      inference Toy.env Toy.started Toy.white real_prob fake_prob
      /\ dict_get "probabilities" Toy.white_report
         = Some (VDict [("real", VFloat (float_round4 real_prob));
                        ("fake", VFloat (float_round4 fake_prob))])
      /\ ((dict_get "label" Toy.white_report = Some (VStr "FAKE")
           /\ dict_get "confidence" Toy.white_report
              = Some (VFloat (float_round4 fake_prob)))
          \/ (dict_get "label" Toy.white_report = Some (VStr "REAL")
              /\ dict_get "confidence" Toy.white_report
                 = Some (VFloat (float_round4 real_prob)))).
Proof.
  split; [ vm_compute; reflexivity | ].
  apply (confidence_of_label Toy.env Toy.started Toy.white).
  vm_compute. reflexivity.
Defined.

Lemma model_not_loaded_guard_witness :
  predict_image Toy.env Toy.white Toy.fresh
  = (Toy.fresh, inl (RuntimeError "Model not loaded"))
  /\ snd (load_model Toy.env Toy.fresh) = inr true
  /\ exists net before later,
      model Toy.started = Some net
      /\ trace (fst (predict_image Toy.env Toy.white Toy.started))
         = trace Toy.started ++ before ++ [EvPreprocess; EvForward] ++ later
      /\ snd (predict_image Toy.env Toy.white Toy.started)
         = match fst (forward Toy.env net [1] (rng Toy.started)) with
           | inl e => inl e
           | inr outputs =>
               inr (report (fst (torch_softmax Toy.env outputs))
                           (snd (torch_softmax Toy.env outputs)))
           end.
Proof.
  split; [ | split ].
  - apply (proj1 (model_not_loaded_guard Toy.env Toy.white)). reflexivity.
  - vm_compute. reflexivity.
  - apply (proj2 (model_not_loaded_guard Toy.env Toy.white)
             Toy.fresh true Toy.white_rgb [1]);
      vm_compute; reflexivity.
Defined.

Lemma inference_deterministic_witness :
  snd (load_model Toy.env Toy.fresh) = inr true
  /\ snd (predict_image Toy.env Toy.white Toy.started)
     = snd (predict_image Toy.env Toy.white
              (fst (predict_image Toy.env Toy.white Toy.started)))
  /\ model (fst (predict_image Toy.env Toy.white Toy.started))
     = model Toy.started.
Proof.
  split; [ vm_compute; reflexivity | ].
  apply (inference_deterministic Toy.env Toy.fresh true Toy.white
           Toy.started (fst (predict_image Toy.env Toy.white Toy.started))).
  - exact toy_eval_deterministic.
  - vm_compute. reflexivity.
  - reflexivity.
  - vm_compute. reflexivity.
Defined.



Lemma rounding_only_in_report_witness :
  snd (predict_image Toy.env Toy.third Toy.started) = inr Toy.third_report
  /\ exists real_prob fake_prob,
      inference Toy.env Toy.started Toy.third real_prob fake_prob
      /\ dict_get "is_fake" Toy.third_report
         = Some (VBool (float_gt fake_prob (Fin (1 # 2))))
      /\ dict_get "confidence" Toy.third_report
         = Some (VFloat (float_round4
                           (if float_gt fake_prob (Fin (1 # 2))
                            then fake_prob else real_prob)))
      /\ dict_get "probabilities" Toy.third_report
         = Some (VDict [("real", VFloat (float_round4 real_prob));
                        ("fake", VFloat (float_round4 fake_prob))])
      /\ (forall q,
             real_prob = Fin q ->
             float_round4 real_prob = Fin (round4 q)
             /\ Qabs (round4 q - q) <= 1 # 20000)
      /\ (forall q,
             fake_prob = Fin q ->
             float_round4 fake_prob = Fin (round4 q)
             /\ Qabs (round4 q - q) <= 1 # 20000).
Proof.
  split; [ vm_compute; reflexivity | ].
  apply (rounding_only_in_report Toy.env Toy.started Toy.third).
  vm_compute. reflexivity.
Defined.

(** The claim C10 as it is written fails on the same run: the confidence
    is nan, which is no number at least 0.5. *)
Lemma confidence_is_rounded_max_counterexample :
  snd (predict_image Faulty.nan_logits Toy.white Toy.started)
  = inr Faulty.nan_report
  /\ ~ (exists confidence,
          dict_get "confidence" Faulty.nan_report
          = Some (VFloat (Fin confidence))
          /\ 1 # 2 <= confidence).
Proof.
  split; [ vm_compute; reflexivity | ].
  intros (confidence & H & _). simpl in H. discriminate.
Qed.

Lemma finite_confidence_is_rounded_max_witness :
  snd (predict_image Toy.env Toy.white Toy.started) = inr Toy.white_report
  /\ Qabs ((2 # 10) + (8 # 10) - 1) <= 1 # 20000
  /\ dict_get "confidence" Toy.white_report
     = Some (VFloat (Fin (round4 (Qmax (2 # 10) (8 # 10)))))
  /\ 1 # 2 <= round4 (Qmax (2 # 10) (8 # 10)).
Proof.
  split; [ vm_compute; reflexivity | ].
  split; [ vm_compute; discriminate | ].
  apply (finite_confidence_is_rounded_max Toy.env Toy.started Toy.white
           Toy.white_report (2 # 10) (8 # 10)).
  - vm_compute. reflexivity.
  - exact toy_white_inference.
  - vm_compute. discriminate.
Defined.

Lemma non_image_rejected_witness :
  content_type Toy.text = Some "text/plain"
  /\ String.prefix "image/" "text/plain" = false
  /\ predict Toy.env Toy.text Toy.started
     = (Toy.started,
        inl {| status_code := 400;
               detail := "File must be an image (JPEG, PNG, etc.)" |}).
Proof.
  split; [ reflexivity | split; [ reflexivity | ] ].
  apply (non_image_rejected Toy.env Toy.text Toy.started).
  right. exists "text/plain". split; reflexivity.
Defined.

Lemma non_rgb_converted_witness :
  mode Toy.white <> "RGB"
  /\ Image_convert Toy.env Toy.white "RGB" = inr Toy.white_rgb
  /\ predict_image Toy.env Toy.white Toy.started
     = ({| model := model Toy.started; rng := 1%N;
           trace := trace Toy.started
                    ++ [EvConvert "L" "RGB";
                        EvPreprocess; EvForward; EvSoftmax] |},
        inr (report (fst (torch_softmax Toy.env Toy.white_logits))
                    (snd (torch_softmax Toy.env Toy.white_logits)))).
Proof.
  split; [ discriminate | split; [ reflexivity | ] ].
  apply (proj1 (non_rgb_converted Toy.env Toy.started Toy.white
                  Toy.white_rgb
                  {| params := Toy.checkpoint; training := false |}
                  [1] Toy.white_logits 1%N
                  ltac:(vm_compute; reflexivity)
                  ltac:(vm_compute; reflexivity)
                  ltac:(vm_compute; reflexivity))).
  - discriminate.
  - reflexivity.
Defined.

Lemma failures_reported_500_witness :
  content_type (Toy.png []) = Some "image/png"
  /\ String.prefix "image/" "image/png" = true
  /\ predict Toy.env (Toy.png []) Toy.started
     = (logged EvImageOpen (logged EvRead Toy.started),
        inl {| status_code := 500;
               detail :=
                 "Error processing image: cannot identify image file" |})
  /\ snd (predict Toy.env (Toy.png [Byte.x68]) Toy.fresh)
     = inl {| status_code := 500;
              detail := "Error processing image: Model not loaded" |}.
Proof.
  split; [ reflexivity | split; [ reflexivity | split ] ].
  - apply (proj1 (proj2 (failures_reported_500 Toy.env (Toy.png [])
                           Toy.started "image/png" eq_refl eq_refl))
             []
             (LibraryError "UnidentifiedImageError"
                "cannot identify image file"));
      reflexivity.
  - apply (proj2 (proj2 (proj2 (failures_reported_500 Toy.env
                                  (Toy.png [Byte.x68]) Toy.fresh
                                  "image/png" eq_refl eq_refl)))
             [Byte.x68]
             {| mode := "L"; size := (1%Z, 1%Z); pixels := [104%Z] |});
      reflexivity.
Defined.

(** * Further properties of the service *)

(** ** The loader *)

(** X1.  When the checkpoint file is absent, [load_model] raises
    [FileNotFoundError("Model file not found: <path>")]: no module is
    created, nothing is loaded, the global [model] and the random generator
    are as before, and the error is printed. *)
Theorem load_model_missing_checkpoint (env : Env) (s0 : state) :
  path_exists env (MODEL_PATH env) = false ->
  load_model env s0
  = ({| model := model s0; rng := rng s0;
        trace := trace s0
                 ++ [EvPrint ("Loading model from: " ++ MODEL_PATH env);
                     EvPrint "Using device: cpu";
                     EvExists (MODEL_PATH env);
                     EvPrint ("Error loading model: Model file not found: "
                              ++ MODEL_PATH env)] |},
     inl (FileNotFoundError ("Model file not found: " ++ MODEL_PATH env))).
Proof.
  intros H. unfold load_model, create_model. run. rewrite H. simpl.
  rewrite <- !app_assoc. reflexivity.
Qed.

Lemma load_model_missing_checkpoint_witness :
  path_exists Faulty.no_checkpoint (MODEL_PATH Faulty.no_checkpoint) = false
  /\ snd (load_model Faulty.no_checkpoint Toy.fresh)
     = inl (FileNotFoundError
              "Model file not found: /srv/backend/models/best_effnetb0.pth")
  /\ model (fst (load_model Faulty.no_checkpoint Toy.fresh)) = None.
Proof.
  split; [ reflexivity | ].
  rewrite (load_model_missing_checkpoint Faulty.no_checkpoint Toy.fresh
             eq_refl).
  split; reflexivity.
Defined.

(** X2.  A [load_model] that raises leaves the global [model] in one of two
    states.  If it failed before the module was created (no checkpoint file,
    or [timm.create_model] raised), the global is what it was.  If it failed
    later (reading the checkpoint, [load_state_dict], [to]), the global
    already holds the module that was being set up, so that it is not
    [None] and [/health] answers [model_loaded: true]. *)
Theorem load_model_failure_global (env : Env) (s0 : state) (e : exn) :
  snd (load_model env s0) = inl e ->
  (model (fst (load_model env s0)) = model s0
   /\ (path_exists env (MODEL_PATH env) = false
       \/ exists g,
            timm_create_model env "efficientnet_b0" false 2 (rng s0)
            = (inl e, g)))
  \/ (exists net g net',
        timm_create_model env "efficientnet_b0" false 2 (rng s0)
        = (inr net, g)
        /\ model (fst (load_model env s0)) = Some net'
        /\ snd (health_check (fst (load_model env s0)))
           = inr [("status", VStr "healthy");
                  ("model_loaded", VBool true);
                  ("device", VStr "cpu")]).
Proof.
  unfold load_model, create_model, health_check. run.
  destruct (path_exists env (MODEL_PATH env)); simpl;
    [ | intros _; left; split; [ reflexivity | left; reflexivity ] ].
  destruct (timm_create_model env "efficientnet_b0" false 2 (rng s0))
    as [[e0 | net] g] eqn:Hc; simpl.
  - intros H. injection H as <-. left. split; [ reflexivity | ].
    right. exists g. reflexivity.
  - destruct (torch_load env (MODEL_PATH env)) as [e1 | sd]; simpl.
    + intros _. right. exists net, g, net. repeat split; reflexivity.
    + destruct (load_state_dict env net sd) as [net1 [e2 | []]]; simpl.
      * intros _. right. exists net, g, net1. repeat split; reflexivity.
      * destruct (module_to env net1) as [e3 | net2]; simpl.
        -- intros _. right. exists net, g, net1. repeat split; reflexivity.
        -- discriminate.
Qed.

Lemma load_model_failure_global_witness :
  snd (load_model Faulty.corrupt_checkpoint Toy.fresh) = inl Faulty.bad_pickle
  /\ model (fst (load_model Faulty.corrupt_checkpoint Toy.fresh))
     = Some Faulty.untrained
  /\ ((model (fst (load_model Faulty.corrupt_checkpoint Toy.fresh))
       = model Toy.fresh
       /\ (path_exists Faulty.corrupt_checkpoint
             (MODEL_PATH Faulty.corrupt_checkpoint) = false
           \/ exists g,
                timm_create_model Faulty.corrupt_checkpoint
                  "efficientnet_b0" false 2 (rng Toy.fresh)
                = (inl Faulty.bad_pickle, g)))
      \/ (exists net g net',
            timm_create_model Faulty.corrupt_checkpoint
              "efficientnet_b0" false 2 (rng Toy.fresh)
            = (inr net, g)
            /\ model (fst (load_model Faulty.corrupt_checkpoint Toy.fresh))
               = Some net'
            /\ snd (health_check
                      (fst (load_model Faulty.corrupt_checkpoint Toy.fresh)))
               = inr [("status", VStr "healthy");
                      ("model_loaded", VBool true);
                      ("device", VStr "cpu")])).
Proof.
  split; [ vm_compute; reflexivity | split; [ vm_compute; reflexivity | ] ].
  apply (load_model_failure_global Faulty.corrupt_checkpoint Toy.fresh
           Faulty.bad_pickle).
  vm_compute. reflexivity.
Defined.

(** X3.  What [load_model] prints last tells how it ended: "Model loaded
    successfully!" when it returns, and then it returns [True];
    "Error loading model: " followed by the text of the exception when it
    raises. *)
Theorem load_model_outcome_printed (env : Env) (s0 : state) :
  exists before,
    match snd (load_model env s0) with
    | inr b =>
        b = true
        /\ trace (fst (load_model env s0))
           = trace s0 ++ before ++ [EvPrint "Model loaded successfully!"]
    | inl e =>
        trace (fst (load_model env s0))
        = trace s0 ++ before
          ++ [EvPrint ("Error loading model: " ++ str_exn e)]
    end.
Proof.
  unfold load_model, create_model. run.
  set (p1 := EvPrint ("Loading model from: " ++ MODEL_PATH env)).
  set (p2 := EvPrint "Using device: cpu").
  set (ex := EvExists (MODEL_PATH env)).
  set (tl := EvTorchLoad (MODEL_PATH env)).
  destruct (path_exists env (MODEL_PATH env)); simpl.
  - destruct (timm_create_model env "efficientnet_b0" false 2 (rng s0))
      as [[e0 | net] g]; simpl.
    + exists [p1; p2; ex; EvCreateModel].
      rewrite <- !app_assoc. reflexivity.
    + destruct (torch_load env (MODEL_PATH env)) as [e1 | sd]; simpl.
      * exists [p1; p2; ex; EvCreateModel; tl].
        rewrite <- !app_assoc. reflexivity.
      * destruct (load_state_dict env net sd) as [net1 [e2 | []]]; simpl.
        -- exists [p1; p2; ex; EvCreateModel; tl; EvLoadStateDict].
           rewrite <- !app_assoc. reflexivity.
        -- destruct (module_to env net1) as [e3 | net2]; simpl.
           ++ exists [p1; p2; ex; EvCreateModel; tl; EvLoadStateDict; EvTo].
              rewrite <- !app_assoc. reflexivity.
           ++ exists [p1; p2; ex; EvCreateModel; tl; EvLoadStateDict; EvTo].
              split; [ reflexivity | ].
              rewrite <- !app_assoc. reflexivity.
  - exists [p1; p2; ex]. rewrite <- !app_assoc. reflexivity.
Qed.

(** X4.  [load_model] returns exactly when the checkpoint file is there and
    creating the module, reading the checkpoint, [load_state_dict] and [to]
    all succeed: no failure of a step is swallowed.  It then returns [True]
    and the global [model] is the module [to] returned, in evaluation mode. *)
Theorem load_model_returns_iff (env : Env) (s0 : state) :
  ((exists b, snd (load_model env s0) = inr b)
   <-> (path_exists env (MODEL_PATH env) = true
        /\ exists net g sd net1 net2,
             timm_create_model env "efficientnet_b0" false 2 (rng s0)
             = (inr net, g)
             /\ torch_load env (MODEL_PATH env) = inr sd
             /\ load_state_dict env net sd = (net1, inr tt)
             /\ module_to env net1 = inr net2))
  /\ (forall net g sd net1 net2,
         path_exists env (MODEL_PATH env) = true ->
         timm_create_model env "efficientnet_b0" false 2 (rng s0)
         = (inr net, g) ->
         torch_load env (MODEL_PATH env) = inr sd ->
         load_state_dict env net sd = (net1, inr tt) ->
         module_to env net1 = inr net2 ->
         snd (load_model env s0) = inr true
         /\ model (fst (load_model env s0)) = Some (eval net2)
         /\ rng (fst (load_model env s0)) = g).
Proof.
  split; [ split | ].
  - intros [b H]. revert H. unfold load_model, create_model. run.
    destruct (path_exists env (MODEL_PATH env)); simpl; [ | discriminate ].
    destruct (timm_create_model env "efficientnet_b0" false 2 (rng s0))
      as [[e0 | net] g]; simpl; [ discriminate | ].
    destruct (torch_load env (MODEL_PATH env)) as [e1 | sd]; simpl;
      [ discriminate | ].
    destruct (load_state_dict env net sd) as [net1 [e2 | []]] eqn:Hl; simpl;
      [ discriminate | ].
    destruct (module_to env net1) as [e3 | net2] eqn:Hm; simpl;
      [ discriminate | ].
    intros _. split; [ reflexivity | ].
    exists net, g, sd, net1, net2. repeat split; assumption.
  - intros [Hp (net & g & sd & net1 & net2 & Hc & Ht & Hl & Hm)].
    exists true. unfold load_model, create_model. run.
    rewrite Hp. simpl. rewrite Hc. simpl. rewrite Ht. simpl.
    rewrite Hl. simpl. rewrite Hm. reflexivity.
  - intros net g sd net1 net2 Hp Hc Ht Hl Hm.
    unfold load_model, create_model. run.
    rewrite Hp. simpl. rewrite Hc. simpl. rewrite Ht. simpl.
    rewrite Hl. simpl. rewrite Hm. repeat split; reflexivity.
Qed.

Lemma load_model_returns_iff_witness :
  snd (load_model Toy.env Toy.fresh) = inr true
  /\ model (fst (load_model Toy.env Toy.fresh))
     = Some (eval {| params := Toy.checkpoint; training := true |})
  /\ rng (fst (load_model Toy.env Toy.fresh)) = 1%N.
Proof.
  apply (proj2 (load_model_returns_iff Toy.env Toy.fresh)
           Faulty.untrained 1%N Toy.checkpoint
           {| params := Toy.checkpoint; training := true |}
           {| params := Toy.checkpoint; training := true |});
    reflexivity.
Defined.

(** ** [/health] and the start-up hook *)

Lemma startup_event_load (env : Env) (s0 : state) :
  fst (startup_event env s0) = fst (load_model env s0)
  /\ (snd (startup_event env s0) = inr tt
      -> exists b, snd (load_model env s0) = inr b).
Proof.
  unfold startup_event. cbv beta iota zeta delta [bind ret].
  destruct (load_model env s0) as [s' [e | b]]; simpl.
  - split; [ reflexivity | discriminate ].
  - split; [ reflexivity | ]. intros _. exists b. reflexivity.
Qed.

(** X5.  [/health] answers [model_loaded: false] while the global [model] is
    [None], and [model_loaded: true] once the start-up hook has returned; it
    changes nothing. *)
Theorem health_check_follows_startup (env : Env) :
  (forall s,
      model s = None ->
      health_check s
      = (s, inr [("status", VStr "healthy");
                 ("model_loaded", VBool false);
                 ("device", VStr "cpu")]))
  /\ (forall s0,
         snd (startup_event env s0) = inr tt ->
         health_check (fst (startup_event env s0))
         = (fst (startup_event env s0),
            inr [("status", VStr "healthy");
                 ("model_loaded", VBool true);
                 ("device", VStr "cpu")])).
Proof.
  split.
  - intros s Hs. unfold health_check. run. rewrite Hs. reflexivity.
  - intros s0 H.
    destruct (startup_event_load env s0) as [Hst Hret].
    destruct (Hret H) as [b Hb].
    destruct (load_model_eval env s0 b Hb) as (net & Hm & _).
    rewrite Hst. unfold health_check. run. rewrite Hm. reflexivity.
Qed.

Lemma health_check_follows_startup_witness :
  health_check Toy.fresh
  = (Toy.fresh, inr [("status", VStr "healthy");
                     ("model_loaded", VBool false);
                     ("device", VStr "cpu")])
  /\ snd (startup_event Toy.env Toy.fresh) = inr tt
  /\ health_check (fst (startup_event Toy.env Toy.fresh))
     = (fst (startup_event Toy.env Toy.fresh),
        inr [("status", VStr "healthy");
             ("model_loaded", VBool true);
             ("device", VStr "cpu")]).
Proof.
  split; [ | split ].
  - apply (proj1 (health_check_follows_startup Toy.env)). reflexivity.
  - vm_compute. reflexivity.
  - apply (proj2 (health_check_follows_startup Toy.env)).
    vm_compute. reflexivity.
Defined.

(** ** More on [predict_image] *)

(** X6.  An exception of the conversion or of the transforms is raised by
    [predict_image] as it is, and nothing is called after the call that
    raised: the transforms are not applied to an image that could not be
    converted, and the network is not run (the random generator is where it
    was) on an image that could not be preprocessed. *)
Theorem predict_image_library_failure
  (env : Env) (s : state) (image : Image) (net : Module) (e : exn) :
  model s = Some net ->
  (mode image <> "RGB" ->
   Image_convert env image "RGB" = inl e ->
   predict_image env image s
   = (logged (EvConvert (mode image) "RGB") s, inl e))
  /\ (forall image',
         rgb_input env image = inr image' ->
         preprocess env image' = inl e ->
         predict_image env image s
         = ({| model := model s; rng := rng s;
               trace := trace s
                        ++ (if String.eqb (mode image) "RGB" then []
                            else [EvConvert (mode image) "RGB"])
                        ++ [EvPreprocess] |},
            inl e)).
Proof.
  intros Hm. split.
  - intros Hmode Hc.
    assert (Hneq : String.eqb (mode image) "RGB" = false)
      by (apply String.eqb_neq; exact Hmode).
    unfold predict_image. run. rewrite Hm, Hneq. simpl. rewrite Hc.
    simpl. rewrite Hm. reflexivity.
  - intros image' Hc Hp. unfold predict_image, rgb_input in *. run.
    rewrite Hm.
    destruct (String.eqb (mode image) "RGB"); simpl.
    + injection Hc as <-. rewrite Hp. simpl. rewrite Hm. reflexivity.
    + rewrite Hc. simpl. rewrite Hp. simpl.
      rewrite <- !app_assoc, Hm. reflexivity.
Qed.

Lemma predict_image_library_failure_witness :
  model Toy.started
  = Some {| params := Toy.checkpoint; training := false |}
  /\ mode Toy.white <> "RGB"
  /\ Image_convert Faulty.no_convert Toy.white "RGB" = inl Faulty.truncated
  /\ predict_image Faulty.no_convert Toy.white Toy.started
     = (logged (EvConvert "L" "RGB") Toy.started, inl Faulty.truncated).
Proof.
  split; [ vm_compute; reflexivity | ].
  split; [ discriminate | split; [ reflexivity | ] ].
  apply (proj1 (predict_image_library_failure Faulty.no_convert Toy.started
                  Toy.white
                  {| params := Toy.checkpoint; training := false |}
                  Faulty.truncated ltac:(vm_compute; reflexivity))).
  - discriminate.
  - reflexivity.
Defined.

(** X7.  The label and the flag of a returned dictionary never disagree: the
    label is "FAKE" with [is_fake] true, or "REAL" with [is_fake] false. *)
Theorem label_agrees_with_is_fake
  (env : Env) (s : state) (image : Image) (res : pydict) :
  snd (predict_image env image s) = inr res ->
  (dict_get "is_fake" res = Some (VBool true)
   /\ dict_get "label" res = Some (VStr "FAKE"))
  \/ (dict_get "is_fake" res = Some (VBool false)
      /\ dict_get "label" res = Some (VStr "REAL")).
Proof.
  intros H.
  destruct (predict_image_inv env s image res H)
    as (real_prob & fake_prob & _ & -> & _).
  unfold report. simpl dict_get.
  destruct (float_gt fake_prob (Fin (1 # 2))).
  - left. split; reflexivity.
  - right. split; reflexivity.
Qed.

Lemma label_agrees_with_is_fake_witness :
  snd (predict_image Toy.env Toy.white Toy.started) = inr Toy.white_report
  /\ ((dict_get "is_fake" Toy.white_report = Some (VBool true)
       /\ dict_get "label" Toy.white_report = Some (VStr "FAKE"))
      \/ (dict_get "is_fake" Toy.white_report = Some (VBool false)
          /\ dict_get "label" Toy.white_report = Some (VStr "REAL"))).
Proof.
  split; [ vm_compute; reflexivity | ].
  apply (label_agrees_with_is_fake Toy.env Toy.started Toy.white).
  vm_compute. reflexivity.
Defined.

Lemma round4_range (x : Q) : 0 <= x <= 1 -> 0 <= round4 x <= 1.
Proof.
  intros [H0 H1].
  pose proof (round4_mono 0 x H0) as L0.
  pose proof (round4_mono x 1 H1) as L1.
  assert (E0 : round4 0 == 0) by reflexivity.
  assert (E1 : round4 1 == 1) by reflexivity.
  split; lra.
Qed.

(** X9.  When the two softmax outputs of a run are finite and lie between 0
    and 1, so do the three numbers of the returned dictionary, [confidence]
    and the two reported class probabilities: rounding to four decimals
    never takes a probability out of the unit interval. *)
Theorem reported_numbers_in_unit_interval
  (env : Env) (s : state) (image : Image) (res : pydict)
  (real_prob fake_prob : Q) :
  snd (predict_image env image s) = inr res ->
  inference env s image (Fin real_prob) (Fin fake_prob) ->
  0 <= real_prob <= 1 ->
  0 <= fake_prob <= 1 ->
  exists confidence real fake,
    dict_get "confidence" res = Some (VFloat (Fin confidence))
    /\ dict_get "probabilities" res
       = Some (VDict [("real", VFloat (Fin real)); ("fake", VFloat (Fin fake))])
    /\ 0 <= confidence <= 1
    /\ 0 <= real <= 1
    /\ 0 <= fake <= 1.
Proof.
  intros H Hrun Hr Hf.
  rewrite (predict_image_report env s image res _ _ H Hrun).
  exists (round4 (if Qgtb fake_prob (1 # 2) then fake_prob else real_prob)),
    (round4 real_prob), (round4 fake_prob).
  split; [ | split; [ reflexivity | ] ].
  - unfold report. simpl dict_get.
    destruct (Qgtb fake_prob (1 # 2)); reflexivity.
  - split; [ | split ]; try (apply round4_range; assumption).
    destruct (Qgtb fake_prob (1 # 2)); apply round4_range; assumption.
Qed.

Lemma reported_numbers_in_unit_interval_witness :
  snd (predict_image Toy.env Toy.third Toy.started) = inr Toy.third_report
  /\ exists confidence real fake,
      dict_get "confidence" Toy.third_report = Some (VFloat (Fin confidence))
      /\ dict_get "probabilities" Toy.third_report
         = Some (VDict [("real", VFloat (Fin real));
                        ("fake", VFloat (Fin fake))])
      /\ 0 <= confidence <= 1
      /\ 0 <= real <= 1
      /\ 0 <= fake <= 1.
Proof.
  split; [ vm_compute; reflexivity | ].
  apply (reported_numbers_in_unit_interval Toy.env Toy.started Toy.third
           Toy.third_report (1 # 3) (2 # 3)).
  - vm_compute. reflexivity.
  - exact toy_third_inference.
  - split; vm_compute; discriminate.
  - split; vm_compute; discriminate.
Defined.

(** X14.  When the fake-class softmax output of a run is nan,
    [predict_image] raises nothing: it answers [is_fake] false and the label
    "REAL", with the rounded real-class output as confidence (nan again
    when that output is nan) and nan as the reported fake probability. *)
Theorem nan_is_reported_real
  (env : Env) (s : state) (image : Image) (res : pydict)
  (real_prob : pyfloat) :
  snd (predict_image env image s) = inr res ->
  inference env s image real_prob NaN ->
  dict_get "is_fake" res = Some (VBool false)
  /\ dict_get "label" res = Some (VStr "REAL")
  /\ dict_get "confidence" res = Some (VFloat (float_round4 real_prob))
  /\ dict_get "probabilities" res
     = Some (VDict [("real", VFloat (float_round4 real_prob));
                    ("fake", VFloat NaN)]).
Proof.
  intros H Hrun.
  rewrite (predict_image_report env s image res _ _ H Hrun).
  repeat split; reflexivity.
Qed.

Lemma toy_nan_inference :
  inference Faulty.nan_logits Toy.started Toy.white NaN NaN.
Proof.
  exists {| params := Toy.checkpoint; training := false |},
    Toy.white_rgb, [1], (NaN, NaN).
  repeat split; vm_compute; reflexivity.
Qed.

Lemma nan_is_reported_real_witness :
  snd (predict_image Faulty.nan_logits Toy.white Toy.started)
  = inr Faulty.nan_report
  /\ dict_get "is_fake" Faulty.nan_report = Some (VBool false)
  /\ dict_get "label" Faulty.nan_report = Some (VStr "REAL")
  /\ dict_get "confidence" Faulty.nan_report
     = Some (VFloat (float_round4 NaN))
  /\ dict_get "probabilities" Faulty.nan_report
     = Some (VDict [("real", VFloat (float_round4 NaN));
                    ("fake", VFloat NaN)]).
Proof.
  split; [ vm_compute; reflexivity | ].
  apply (nan_is_reported_real Faulty.nan_logits Toy.started Toy.white
           Faulty.nan_report NaN).
  - vm_compute. reflexivity.
  - exact toy_nan_inference.
Defined.

(** ** More on the request handler *)

(** X10.  A successful answer is the prediction of the decoded upload with two
    entries in front: [success: True] and the file name as it was declared
    ([None] when there was none).  The keys of the prediction do not clash
    with these two, so that the six entries come out in this order and the
    four of the prediction are passed on as they are. *)
Theorem predict_success_body
  (env : Env) (file : UploadFile) (s : state) (body : pydict) :
  snd (predict env file s) = inr body ->
  exists contents image real_prob fake_prob,
    upload_read file = inr contents
    /\ Image_open env contents = inr image
    /\ inference env (logged EvImageOpen (logged EvRead s)) image
         real_prob fake_prob
    /\ body = [("success", VBool true);
               ("filename", optional_str (filename file))]
              ++ report real_prob fake_prob.
Proof.
  unfold predict. destruct (not_an_image file); [ discriminate | ].
  cbv beta iota zeta delta [bind ret raise call emit try_except].
  destruct (upload_read file) as [e | contents] eqn:Hr; [ discriminate | ].
  destruct (Image_open env contents) as [e | image] eqn:Ho;
    [ discriminate | ].
  destruct (predict_image env image (logged EvImageOpen (logged EvRead s)))
    as [s' [e | result]] eqn:Hrun; [ discriminate | ].
  intros H. injection H as <-.
  assert (Hres : snd (predict_image env image
                        (logged EvImageOpen (logged EvRead s)))
                 = inr result) by (rewrite Hrun; reflexivity).
  destruct (predict_image_inv env _ image result Hres)
    as (real_prob & fake_prob & Hinf & -> & _).
  exists contents, image, real_prob, fake_prob.
  repeat split; try reflexivity; assumption.
Qed.

Lemma predict_success_body_witness :
  snd (predict Toy.env (Toy.png [Byte.xff]) Toy.started)
  = inr ([("success", VBool true); ("filename", VStr "face.png")]
         ++ Toy.white_report)
  /\ exists contents image real_prob fake_prob,
      upload_read (Toy.png [Byte.xff]) = inr contents
      /\ Image_open Toy.env contents = inr image
      /\ inference Toy.env (logged EvImageOpen (logged EvRead Toy.started))
           image real_prob fake_prob
      /\ [("success", VBool true); ("filename", VStr "face.png")]
         ++ Toy.white_report
         = [("success", VBool true);
            ("filename", optional_str (filename (Toy.png [Byte.xff])))]
           ++ report real_prob fake_prob.
Proof.
  split; [ vm_compute; reflexivity | ].
  apply (predict_success_body Toy.env (Toy.png [Byte.xff]) Toy.started).
  vm_compute. reflexivity.
Defined.

(** X12.  The handler raises nothing but [HTTPException] with status 400 or 500,
    and 400 exactly for a declared content type that is absent or does not
    start with "image/" (the empty string included): an upload accepted by
    this test never ends in a 400. *)
Theorem predict_status_codes (env : Env) (file : UploadFile) (s : state) :
  ((exists h, snd (predict env file s) = inl h /\ status_code h = 400%Z)
   <-> (content_type file = None
        \/ exists ct, content_type file = Some ct
                      /\ String.prefix "image/" ct = false))
  /\ (forall h,
         snd (predict env file s) = inl h ->
         status_code h = 400%Z \/ status_code h = 500%Z).
Proof.
  assert (Hcases :
            (not_an_image file = true
             /\ (content_type file = None
                 \/ exists ct, content_type file = Some ct
                               /\ String.prefix "image/" ct = false))
            \/ (not_an_image file = false
                /\ exists ct, content_type file = Some ct
                              /\ String.prefix "image/" ct = true)).
  { unfold not_an_image, truthy.
    destruct (content_type file) as [ct | ].
    - destruct (String.prefix "image/" ct) eqn:Hp.
      + right. split; [ | exists ct; split; [ reflexivity | exact Hp ] ].
        destruct ct; [ discriminate | reflexivity ].
      + left. split; [ apply orb_true_r | ].
        right. exists ct. split; [ reflexivity | exact Hp ].
    - left. split; [ reflexivity | left; reflexivity ]. }
  assert (H500 : not_an_image file = false ->
                 forall h, snd (predict env file s) = inl h ->
                           status_code h = 500%Z).
  { intros Hok h. unfold predict. rewrite Hok.
    cbv beta iota zeta delta [bind ret raise call emit try_except].
    destruct (upload_read file) as [e | contents];
      [ intros H; injection H as <-; reflexivity | ].
    destruct (Image_open env contents) as [e | image];
      [ intros H; injection H as <-; reflexivity | ].
    destruct (predict_image env image (logged EvImageOpen (logged EvRead s)))
      as [s' [e | result]];
      [ intros H; injection H as <-; reflexivity | discriminate ]. }
  split; [ split | ].
  - intros (h & Hh & H400).
    destruct Hcases as [[_ Hc] | [Hok _]]; [ exact Hc | ].
    rewrite (H500 Hok h Hh) in H400. discriminate.
  - intros Hc. unfold predict.
    destruct Hcases as [[Hno _] | [_ (ct & Hct & Hp)]].
    + rewrite Hno. eexists. split; reflexivity.
    + exfalso. destruct Hc as [Hn | (ct' & Hct' & Hp')]; congruence.
  - intros h Hh.
    destruct Hcases as [[Hno _] | [Hok _]].
    + left. unfold predict in Hh. rewrite Hno in Hh.
      injection Hh as <-. reflexivity.
    + right. exact (H500 Hok h Hh).
Qed.

Lemma predict_status_codes_witness :
  (exists h, snd (predict Toy.env Toy.text Toy.started) = inl h
             /\ status_code h = 400%Z)
  /\ (status_code {| status_code := 500;
                     detail := "Error processing image: Model not loaded" |}
      = 400%Z
      \/ status_code {| status_code := 500;
                        detail := "Error processing image: Model not loaded" |}
         = 500%Z).
Proof.
  split.
  - apply (proj1 (predict_status_codes Toy.env Toy.text Toy.started)).
    right. exists "text/plain". split; reflexivity.
  - apply (proj2 (predict_status_codes Toy.env (Toy.png [Byte.x68])
                    Toy.fresh)).
    vm_compute. reflexivity.
Defined.

(** ** A failed start-up followed by a request *)

(** X13.  When [load_model] raised after the module was created, the guard of
    [predict_image] does not fire on a later call: the call runs the module
    that was left in the global and ends as that network does, although the
    start-up never completed. *)
Theorem predict_image_after_failed_load
  (env : Env) (s0 : state) (e : exn) (net : Module) (g : N)
  (image image' : Image) (x : Tensor) :
  path_exists env (MODEL_PATH env) = true ->
  timm_create_model env "efficientnet_b0" false 2 (rng s0) = (inr net, g) ->
  snd (load_model env s0) = inl e ->
  rgb_input env image = inr image' ->
  preprocess env image' = inr x ->
  exists net',
    model (fst (load_model env s0)) = Some net'
    /\ snd (predict_image env image (fst (load_model env s0)))
       = match fst (forward env net' x (rng (fst (load_model env s0)))) with
         | inl e' => inl e'
         | inr outputs =>
             inr (report (fst (torch_softmax env outputs))
                         (snd (torch_softmax env outputs)))
         end.
Proof.
  intros Hex Hc Hload Hrgb Hp.
  assert (Hm : exists net', model (fst (load_model env s0)) = Some net').
  { revert Hload. unfold load_model, create_model. run.
    rewrite Hex. simpl. rewrite Hc. simpl.
    destruct (torch_load env (MODEL_PATH env)) as [e1 | sd]; simpl;
      [ intros _; exists net; reflexivity | ].
    destruct (load_state_dict env net sd) as [net1 [e2 | []]]; simpl;
      [ intros _; exists net1; reflexivity | ].
    destruct (module_to env net1) as [e3 | net2]; simpl;
      [ intros _; exists net1; reflexivity | discriminate ]. }
  destruct Hm as [net' Hm].
  exists net'. split; [ exact Hm | ].
  exact (proj1 (predict_image_forward env _ image net' image' x Hm Hrgb Hp)).
Qed.

Lemma predict_image_after_failed_load_witness :
  snd (load_model Faulty.corrupt_checkpoint Toy.fresh) = inl Faulty.bad_pickle
  /\ exists net',
      model (fst (load_model Faulty.corrupt_checkpoint Toy.fresh)) = Some net'
      /\ snd (predict_image Faulty.corrupt_checkpoint Toy.white
                (fst (load_model Faulty.corrupt_checkpoint Toy.fresh)))
         = match
             fst (forward Faulty.corrupt_checkpoint net' [1]
                    (rng (fst (load_model Faulty.corrupt_checkpoint
                                 Toy.fresh))))
           with
           | inl e' => inl e'
           | inr outputs =>
               inr (report
                      (fst (torch_softmax Faulty.corrupt_checkpoint outputs))
                      (snd (torch_softmax Faulty.corrupt_checkpoint
                              outputs)))
           end.
Proof.
  split; [ vm_compute; reflexivity | ].
  apply (predict_image_after_failed_load Faulty.corrupt_checkpoint Toy.fresh
           Faulty.bad_pickle Faulty.untrained 1%N Toy.white Toy.white_rgb
           [1]);
    vm_compute; reflexivity.
Defined.
